(** * The Windows message box of the application shell

    A shallow embedding of [atom/browser/ui/message_box_win.cc]: the
    synchronous presenter [ShowMessageBoxUTF16] / [ShowMessageBox], the
    asynchronous overload with its worker thread, and [ShowErrorBox].

    The operating system and the Chromium base library are outside the file.
    What they compute is gathered in the class [Platform]; what they do is
    recorded in a [World]: the trace of observable events, the heap of
    [base::Thread] objects and the pending tasks of the UI thread. *)

From Stdlib Require Import ZArith Lia.
From stdpp Require Import base option list gmap strings.

Local Open Scope Z_scope.

(** ** Windows SDK: integer types, constants and the task dialog structures *)

Module Win32.

Definition INT_MIN : Z := - 2 ^ 31.
Definition INT_MAX : Z := 2 ^ 31 - 1.

(** Conversion of an integer value to [int]: 32 bits, two's complement. *)
Definition to_int (z : Z) : Z := (z + 2 ^ 31) mod 2 ^ 32 - 2 ^ 31.

(** Conversion to [UINT]. *)
Definition to_UINT (z : Z) : Z := z mod 2 ^ 32.

(** [winuser.h] *)
Definition IDCANCEL : Z := 2.

(** [commctrl.h], [TASKDIALOG_FLAGS] *)
Definition TDF_USE_HICON_MAIN : Z := 0x0002.
Definition TDF_ALLOW_DIALOG_CANCELLATION : Z := 0x0008.
Definition TDF_SIZE_TO_CONTENT : Z := 0x01000000.

(** [MAKEINTRESOURCEW (i)] is the [WORD] [i] cast to a string pointer. *)
Definition MAKEINTRESOURCEW (i : Z) : Z := i mod 2 ^ 16.
Definition TD_WARNING_ICON : Z := MAKEINTRESOURCEW (-1).
Definition TD_ERROR_ICON : Z := MAKEINTRESOURCEW (-2).
Definition TD_INFORMATION_ICON : Z := MAKEINTRESOURCEW (-3).

(** Handles are numbers, [NULL] is 0. *)
Definition HWND : Type := Z.
Definition HINSTANCE : Type := Z.
Definition HICON : Type := Z.
Definition NULL : Z := 0.

(** A [base::string16] is a sequence of 16 bit code units. A [PCWSTR] is
    read up to its first NUL; [None] is the null pointer. *)
Definition char16 : Type := Z.
Definition string16 : Type := list char16.
Definition PCWSTR : Type := option (list char16).

Fixpoint until_NUL (s : string16) : list char16 :=
  match s with
  | [] => []
  | c :: s' => if c =? 0 then [] else c :: until_NUL s'
  end.

Definition c_str (s : string16) : PCWSTR := Some (until_NUL s).

Definition empty (s : string16) : bool :=
  match s with [] => true | _ :: _ => false end.

Record TASKDIALOG_BUTTON : Type := {
  nButtonID : Z;
  pszButtonText : PCWSTR
}.

(** [hMainIcon] and [pszMainIcon] are the two members of one union. *)
Inductive MainIcon : Type :=
| hMainIcon (h : HICON)
| pszMainIcon (r : Z).

(** The members [ShowMessageBoxUTF16] writes, and [dwCommonButtons]; all
    the other members keep the 0 of [config = { 0 }]. [pButtons] is the
    array the pointer designates. *)
Record TASKDIALOGCONFIG : Type := {
  cbSize : Z;
  hwndParent : HWND;
  hInstance : HINSTANCE;
  dwFlags : Z;
  dwCommonButtons : Z;
  pszWindowTitle : PCWSTR;
  MainIcon_u : MainIcon;
  pszMainInstruction : PCWSTR;
  pszContent : PCWSTR;
  cButtons : Z;
  pButtons : list TASKDIALOG_BUTTON
}.

(** [flags & f] has every bit of [f]. *)
Definition has_flag (flags f : Z) : bool := Z.land flags f =? f.

End Win32.

Export Win32.

(** ** The portable request *)

(** Modelled from the spec: the enumeration is declared in
    [atom/browser/ui/message_box.h]; the spec lists information, warning and
    error. The [switch] over it has no [default], so any further enumerator
    leaves the icon member untouched: [MESSAGE_BOX_TYPE_unlisted] stands for
    such a value. *)
Inductive MessageBoxType : Type :=
| MESSAGE_BOX_TYPE_INFORMATION
| MESSAGE_BOX_TYPE_WARNING
| MESSAGE_BOX_TYPE_ERROR
| MESSAGE_BOX_TYPE_unlisted.

(** Objects the file only passes around are known by their identity. *)
Definition NativeWindow : Type := nat.
Definition SkBitmap : Type := nat.
Definition MessageBoxCallback : Type := nat.

(** A [gfx::ImageSkia] is null ([None]) or has a bitmap. *)
Definition ImageSkia : Type := option SkBitmap.

(** ** What the platform computes *)

Class Platform : Type := {
  (** [base::UTF8ToUTF16] *)
  UTF8ToUTF16 : string -> string16;
  (** [NativeWindowViews::GetAcceleratedWidget] *)
  GetAcceleratedWidget : NativeWindow -> HWND;
  (** [GetModuleHandle (NULL)] *)
  GetModuleHandle_NULL : HINSTANCE;
  (** [IconUtil::CreateHICONFromSkBitmap] *)
  CreateHICONFromSkBitmap : SkBitmap -> HICON;
  (** [sizeof (TASKDIALOGCONFIG)] *)
  sizeof_config : Z;
  (** the macro [ATOM_PRODUCT_NAME] *)
  ATOM_PRODUCT_NAME : string;
  (** What [TaskDialogIndirect] stores through [pnButton] for a
      configuration: [None] when it stores nothing. *)
  TaskDialogIndirect : TASKDIALOGCONFIG -> option Z;
  (** Whether [base::Thread::Start] succeeds for the thread object. *)
  Thread_Start : nat -> bool
}.

(** ** Threads, tasks, events and the world *)

Inductive ThreadId : Type :=
| BrowserThread_UI
| base_Thread (t : nat).

(** The closures made by [base::Bind] in this file. *)
Inductive Task : Type :=
| Bind_RunMessageBoxInNewThread
    (thread : nat) (parent : option NativeWindow) (type : MessageBoxType)
    (buttons : list string) (cancel_id : Z) (title message detail : string)
    (icon : ImageSkia) (callback : MessageBoxCallback)
| Bind_callback (callback : MessageBoxCallback) (result : Z)
| DeleteSoon_thread (thread : nat).

Inductive Event : Type :=
| DialogScope_enter (parent : NativeWindow)
| DialogScope_leave (parent : NativeWindow)
| TaskDialogIndirect_called
    (on : ThreadId) (config : TASKDIALOGCONFIG) (pnButton : option Z)
| DestroyIcon (h : HICON)
| callback_Run (on : ThreadId) (callback : MessageBoxCallback) (result : Z).

Record Thread : Type := {
  thread_name : string;
  com_with_mta : option bool;
  running : bool;
  message_loop : list Task
}.

Record World : Type := {
  trace : list Event;
  threads : gmap nat Thread;
  ui_loop : list Task
}.

(** ** A state monad with undefined behaviour *)

Inductive Outcome (A : Type) : Type :=
| Returns (a : A) (w : World)
| Undefined.
Arguments Returns {A} a w.
Arguments Undefined {A}.

Definition M (A : Type) : Type := World -> Outcome A.

#[global] Instance M_ret : MRet M := fun A a w => Returns a w.
#[global] Instance M_bind : MBind M := fun A B f m w =>
  match m w with
  | Returns a w' => f a w'
  | Undefined => Undefined
  end.

Definition undefined {A : Type} : M A := fun _ => Undefined.

Definition emit (e : Event) : M unit := fun w =>
  Returns tt {| trace := trace w ++ [e];
                threads := threads w;
                ui_loop := ui_loop w |}.

Definition returned {A : Type} (o : Outcome A) : option A :=
  match o with
  | Returns a _ => Some a
  | Undefined => None
  end.

Definition set_trace (tr : list Event) (w : World) : World :=
  {| trace := tr; threads := threads w; ui_loop := ui_loop w |}.

(** The configurations of the dialogs shown in a trace, oldest first. *)
Fixpoint dialogs (tr : list Event) : list TASKDIALOGCONFIG :=
  match tr with
  | [] => []
  | TaskDialogIndirect_called _ config _ :: tr' => config :: dialogs tr'
  | _ :: tr' => dialogs tr'
  end.

(** [std::vector::front] of an empty vector is undefined. The pointer to the
    front element designates the whole array. *)
Definition address_of_front {A : Type} (v : list A) : M (list A) :=
  match v with
  | [] => undefined
  | _ :: _ => mret v
  end.

(** ** The presenter *)

(** Small command ID values are already taken by Windows. *)
Definition kIDStart : Z := 100.

(** The loop that fills [dialog_buttons]: entry [i] is
    [{i + kIDStart, buttons[i].c_str()}], the sum converted to the [int]
    member [nButtonID]. *)
Definition dialog_buttons_of (buttons : list string16) : list TASKDIALOG_BUTTON :=
  imap (fun i b => {| nButtonID := to_int (Z.of_nat i + kIDStart);
                      pszButtonText := c_str b |}) buttons.

Definition set_dwFlags (f : Z) (c : TASKDIALOGCONFIG) : TASKDIALOGCONFIG :=
  {| cbSize := cbSize c; hwndParent := hwndParent c; hInstance := hInstance c;
     dwFlags := f; dwCommonButtons := dwCommonButtons c;
     pszWindowTitle := pszWindowTitle c; MainIcon_u := MainIcon_u c;
     pszMainInstruction := pszMainInstruction c; pszContent := pszContent c;
     cButtons := cButtons c; pButtons := pButtons c |}.

Definition set_MainIcon (i : MainIcon) (c : TASKDIALOGCONFIG) : TASKDIALOGCONFIG :=
  {| cbSize := cbSize c; hwndParent := hwndParent c; hInstance := hInstance c;
     dwFlags := dwFlags c; dwCommonButtons := dwCommonButtons c;
     pszWindowTitle := pszWindowTitle c; MainIcon_u := i;
     pszMainInstruction := pszMainInstruction c; pszContent := pszContent c;
     cButtons := cButtons c; pButtons := pButtons c |}.

Definition set_pszMainInstruction (s : PCWSTR) (c : TASKDIALOGCONFIG) : TASKDIALOGCONFIG :=
  {| cbSize := cbSize c; hwndParent := hwndParent c; hInstance := hInstance c;
     dwFlags := dwFlags c; dwCommonButtons := dwCommonButtons c;
     pszWindowTitle := pszWindowTitle c; MainIcon_u := MainIcon_u c;
     pszMainInstruction := s; pszContent := pszContent c;
     cButtons := cButtons c; pButtons := pButtons c |}.

Definition set_pszContent (s : PCWSTR) (c : TASKDIALOGCONFIG) : TASKDIALOGCONFIG :=
  {| cbSize := cbSize c; hwndParent := hwndParent c; hInstance := hInstance c;
     dwFlags := dwFlags c; dwCommonButtons := dwCommonButtons c;
     pszWindowTitle := pszWindowTitle c; MainIcon_u := MainIcon_u c;
     pszMainInstruction := pszMainInstruction c; pszContent := s;
     cButtons := cButtons c; pButtons := pButtons c |}.

Section Presenter.

Context `{P : Platform}.

(** Lines 38 to 77 of [ShowMessageBoxUTF16]: the configuration, given the
    array [&dialog_buttons.front()] and [dialog_buttons.size()]. *)
Definition fill_config (parent : HWND) (type : MessageBoxType)
    (cancel_id : Z) (title message detail : string16) (icon : ImageSkia)
    (front : list TASKDIALOG_BUTTON) (size : nat) : TASKDIALOGCONFIG :=
  let flags := TDF_SIZE_TO_CONTENT in
  let flags :=
    if cancel_id =? 0 then flags
    else Z.lor flags TDF_ALLOW_DIALOG_CANCELLATION in
  let config :=
    {| cbSize := sizeof_config;
       hwndParent := parent;
       hInstance := GetModuleHandle_NULL;
       dwFlags := flags;
       dwCommonButtons := 0;
       pszWindowTitle := c_str title;
       MainIcon_u := pszMainIcon NULL;
       pszMainInstruction := None;
       pszContent := None;
       cButtons := to_UINT (Z.of_nat size);
       pButtons := front |} in
  let config :=
    match icon with
    | Some bitmap =>
        let hicon := CreateHICONFromSkBitmap bitmap in
        let config :=
          set_dwFlags (Z.lor (dwFlags config) TDF_USE_HICON_MAIN) config in
        set_MainIcon (hMainIcon hicon) config
    | None =>
        match type with
        | MESSAGE_BOX_TYPE_INFORMATION =>
            set_MainIcon (pszMainIcon TD_INFORMATION_ICON) config
        | MESSAGE_BOX_TYPE_WARNING =>
            set_MainIcon (pszMainIcon TD_WARNING_ICON) config
        | MESSAGE_BOX_TYPE_ERROR =>
            set_MainIcon (pszMainIcon TD_ERROR_ICON) config
        | MESSAGE_BOX_TYPE_unlisted => config
        end
    end in
  if empty detail then
    set_pszContent (c_str message) config
  else
    set_pszContent (c_str detail)
      (set_pszMainInstruction (c_str message) config).

(** The call of [TaskDialogIndirect (&config, &id, NULL, NULL)] made on
    thread [cur]: it is recorded, and yields what was stored in [id]. *)
Definition call_TaskDialogIndirect (cur : ThreadId)
    (config : TASKDIALOGCONFIG) : M (option Z) :=
  let pn := TaskDialogIndirect config in
  _ ← emit (TaskDialogIndirect_called cur config pn);
  mret pn.

(** The destructor of the [ScopedHICON]: an icon that was set and is not
    null is destroyed when the function returns. *)
Definition ScopedHICON_destroy (icon : ImageSkia) : M unit :=
  match icon with
  | Some bitmap =>
      let hicon := CreateHICONFromSkBitmap bitmap in
      if hicon =? NULL then mret tt else emit (DestroyIcon hicon)
  | None => mret tt
  end.

Definition ShowMessageBoxUTF16 (cur : ThreadId) (parent : HWND)
    (type : MessageBoxType) (buttons : list string16) (cancel_id : Z)
    (title message detail : string16) (icon : ImageSkia) : M Z :=
  let dialog_buttons := dialog_buttons_of buttons in
  front ← address_of_front dialog_buttons;
  let config :=
    fill_config parent type cancel_id title message detail icon
      front (length dialog_buttons) in
  let id := 0 in
  pn ← call_TaskDialogIndirect cur config;
  let id := match pn with Some v => v | None => id end in
  _ ← ScopedHICON_destroy icon;
  if (id =? 0) || (id =? IDCANCEL) then
    mret cancel_id
  else
    (* [int] arithmetic, wrapping as the compilers for Windows do *)
    mret (to_int (id - kIDStart)).

(** Modelled from the spec: [NativeWindow::DialogScope] is declared in
    [atom/browser/native_window.h]; the spec calls it a scoped marker
    indicating a modal dialog is active for the owner window. Without an
    owner there is nothing to mark. *)
Definition DialogScope_ctor (parent : option NativeWindow) : M unit :=
  match parent with
  | Some p => emit (DialogScope_enter p)
  | None => mret tt
  end.

Definition DialogScope_dtor (parent : option NativeWindow) : M unit :=
  match parent with
  | Some p => emit (DialogScope_leave p)
  | None => mret tt
  end.

(** The synchronous [ShowMessageBox]. *)
Definition ShowMessageBox (cur : ThreadId) (parent : option NativeWindow)
    (type : MessageBoxType) (buttons : list string) (cancel_id : Z)
    (title message detail : string) (icon : ImageSkia) : M Z :=
  let utf16_buttons := map UTF8ToUTF16 buttons in
  let hwnd_parent :=
    match parent with
    | Some p => GetAcceleratedWidget p
    | None => NULL
    end in
  _ ← DialogScope_ctor parent;
  result ← ShowMessageBoxUTF16 cur hwnd_parent type utf16_buttons cancel_id
             (UTF8ToUTF16 title) (UTF8ToUTF16 message) (UTF8ToUTF16 detail)
             icon;
  _ ← DialogScope_dtor parent;
  mret result.


(** The configuration a call of [ShowMessageBoxUTF16] hands to
    [TaskDialogIndirect]. *)
Definition shown_config (parent : HWND) (type : MessageBoxType)
    (buttons : list string16) (cancel_id : Z)
    (title message detail : string16) (icon : ImageSkia) : TASKDIALOGCONFIG :=
  fill_config parent type cancel_id title message detail icon
    (dialog_buttons_of buttons) (length (dialog_buttons_of buttons)).

(** The events a [ScopedHICON] leaves when it goes out of scope. *)
Definition icon_events (icon : ImageSkia) : list Event :=
  match icon with
  | Some bitmap =>
      if CreateHICONFromSkBitmap bitmap =? NULL then []
      else [DestroyIcon (CreateHICONFromSkBitmap bitmap)]
  | None => []
  end.

(** The user presses button [i] of the dialog: [TaskDialogIndirect] stores
    the identifier of entry [i] of the button array. *)
Definition presses (config : TASKDIALOGCONFIG) (i : nat) : Prop :=
  match pButtons config !! i with
  | Some b => TaskDialogIndirect config = Some (nButtonID b)
  | None => False
  end.

#[global] Instance presses_dec config i : Decision (presses config i).
Proof. unfold presses. destruct (pButtons config !! i); apply _. Defined.

(** The dialog ends without a button: nothing is stored, or 0, or the
    dialog is cancelled. *)
Definition no_choice (pn : option Z) : Prop :=
  pn = None \/ pn = Some 0 \/ pn = Some IDCANCEL.

#[global] Instance no_choice_dec pn : Decision (no_choice pn).
Proof. unfold no_choice. apply _. Defined.

(** What [TaskDialogIndirect] stores for a configuration that asks for no
    common buttons, after the Windows documentation of [pnButton]: nothing,
    0 on failure, [IDCANCEL], or the identifier of one of [pButtons]. *)
Definition may_produce (config : TASKDIALOGCONFIG) (pn : option Z) : Prop :=
  no_choice pn \/
  Exists (fun b => pn = Some (nButtonID b)) (pButtons config).

#[global] Instance may_produce_dec config pn : Decision (may_produce config pn).
Proof. unfold may_produce. apply _. Defined.

(** *** Thread objects and message loops *)

Definition set_threads (ts : gmap nat Thread) (w : World) : World :=
  {| trace := trace w; threads := ts; ui_loop := ui_loop w |}.

Definition set_ui_loop (q : list Task) (w : World) : World :=
  {| trace := trace w; threads := threads w; ui_loop := q |}.

(** [new base::Thread (name)]: a thread object at an unused address. *)
Definition new_Thread (name : string) : M nat := fun w =>
  let t := fresh (dom (threads w)) in
  Returns t
    (set_threads
       (<[t := {| thread_name := name; com_with_mta := None;
                  running := false; message_loop := [] |}]> (threads w)) w).

(** A member function called through a pointer to a thread object; the
    object has to be alive. *)
Definition with_thread {A : Type} (t : nat) (f : Thread -> M A) : M A :=
  fun w =>
    match threads w !! t with
    | Some th => f th w
    | None => Undefined
    end.

Definition store_thread (t : nat) (th : Thread) : M unit := fun w =>
  Returns tt (set_threads (<[t := th]> (threads w)) w).

Definition init_com_with_mta (t : nat) (use_mta : bool) : M unit :=
  with_thread t (fun th =>
    store_thread t
      {| thread_name := thread_name th; com_with_mta := Some use_mta;
         running := running th; message_loop := message_loop th |}).

Definition Start (t : nat) : M bool :=
  with_thread t (fun th =>
    if Thread_Start t then
      _ ← store_thread t
            {| thread_name := thread_name th; com_with_mta := com_with_mta th;
               running := true; message_loop := message_loop th |};
      mret true
    else mret false).

(** [thread->message_loop ()->PostTask (FROM_HERE, task)]; a thread that
    does not run has no message loop. *)
Definition message_loop_PostTask (t : nat) (task : Task) : M unit :=
  with_thread t (fun th =>
    if running th then
      store_thread t
        {| thread_name := thread_name th; com_with_mta := com_with_mta th;
           running := running th;
           message_loop := message_loop th ++ [task] |}
    else undefined).

(** [delete thread], by the [scoped_ptr] or by [DeleteSoon]. *)
Definition delete_Thread (t : nat) : M unit :=
  with_thread t (fun _ w =>
    Returns tt (set_threads (delete t (threads w)) w)).

(** [content::BrowserThread::PostTask (content::BrowserThread::UI, ...)] *)
Definition BrowserThread_PostTask_UI (task : Task) : M unit := fun w =>
  Returns tt (set_ui_loop (ui_loop w ++ [task]) w).

(** [content::BrowserThread::DeleteSoon (content::BrowserThread::UI, ...)] *)
Definition BrowserThread_DeleteSoon_UI (t : nat) : M unit :=
  BrowserThread_PostTask_UI (DeleteSoon_thread t).

(** [callback.Run (result)] on thread [cur]. *)
Definition Run (cur : ThreadId) (callback : MessageBoxCallback)
    (result : Z) : M unit :=
  emit (callback_Run cur callback result).

(** The thread object of a message box once it runs, with its pending
    tasks. *)
Definition MessageBoxThread (loop : list Task) : Thread :=
  {| thread_name := ATOM_PRODUCT_NAME +:+ "MessageBoxThread";
     com_with_mta := Some false;
     running := true;
     message_loop := loop |}.

(** *** The asynchronous overload *)

Definition RunMessageBoxInNewThread (cur : ThreadId) (thread : nat)
    (parent : option NativeWindow) (type : MessageBoxType)
    (buttons : list string) (cancel_id : Z) (title message detail : string)
    (icon : ImageSkia) (callback : MessageBoxCallback) : M unit :=
  result ← ShowMessageBox cur parent type buttons cancel_id title message
             detail icon;
  _ ← BrowserThread_PostTask_UI (Bind_callback callback result);
  BrowserThread_DeleteSoon_UI thread.

Definition ShowMessageBox_async (cur : ThreadId)
    (parent : option NativeWindow) (type : MessageBoxType)
    (buttons : list string) (cancel_id : Z) (title message detail : string)
    (icon : ImageSkia) (callback : MessageBoxCallback) : M unit :=
  thread ← new_Thread (ATOM_PRODUCT_NAME +:+ "MessageBoxThread");
  _ ← init_com_with_mta thread false;
  started ← Start thread;
  if negb started then
    _ ← Run cur callback cancel_id;
    (* return: the scoped_ptr still owns the thread object *)
    delete_Thread thread
  else
    let unretained := thread in
    message_loop_PostTask unretained
      (Bind_RunMessageBoxInNewThread unretained parent type buttons
         cancel_id title message detail icon callback).

Definition ShowErrorBox (title content : string16) : M unit :=
  mret tt.

(** *** Running the posted tasks *)

Definition run_task (cur : ThreadId) (task : Task) : M unit :=
  match task with
  | Bind_RunMessageBoxInNewThread thread parent type buttons cancel_id
      title message detail icon callback =>
      RunMessageBoxInNewThread cur thread parent type buttons cancel_id
        title message detail icon callback
  | Bind_callback callback result => Run cur callback result
  | DeleteSoon_thread thread => delete_Thread thread
  end.

(** One turn of the message loop of thread object [t]: its oldest pending
    task, if there is one, runs on that thread. *)
Definition thread_step (t : nat) : M unit := fun w =>
  match threads w !! t with
  | Some th =>
      match message_loop th with
      | [] => Returns tt w
      | task :: rest =>
          (_ ← store_thread t
                 {| thread_name := thread_name th;
                    com_with_mta := com_with_mta th;
                    running := running th; message_loop := rest |};
           run_task (base_Thread t) task) w
      end
  | None => Returns tt w
  end.

(** One turn of the message loop of the UI thread. *)
Definition ui_step : M unit := fun w =>
  match ui_loop w with
  | [] => Returns tt w
  | task :: rest => run_task BrowserThread_UI task (set_ui_loop rest w)
  end.

End Presenter.

(** ** A sample platform

    Labels in ASCII, a window handle per window, and a dialog subsystem and a
    thread library whose answers are given. *)

Module Sample.

Definition utf16 (s : string) : string16 :=
  map (fun a => Z.of_nat (Ascii.nat_of_ascii a)) (String.list_ascii_of_string s).

Definition platform (answer : TASKDIALOGCONFIG -> option Z)
    (starts : nat -> bool) : Platform :=
  {| UTF8ToUTF16 := utf16;
     GetAcceleratedWidget := fun window => 1000 + Z.of_nat window;
     GetModuleHandle_NULL := 4194304;
     CreateHICONFromSkBitmap := fun bitmap => 7 + Z.of_nat bitmap;
     sizeof_config := 160;
     ATOM_PRODUCT_NAME := "Electron";
     TaskDialogIndirect := answer;
     Thread_Start := starts |}.

Definition world : World := {| trace := []; threads := ∅; ui_loop := [] |}.

(** A platform whose dialogs all store [pn], and whose threads start. *)
Definition answers (pn : option Z) : Platform :=
  platform (fun _ => pn) (fun _ => true).

(** A platform on which no thread starts. *)
Definition no_threads : Platform :=
  platform (fun _ => Some 100) (fun _ => false).

Definition OK_Cancel : list string := ["OK"; "Cancel"]%string.
Definition labels : list string16 := map utf16 OK_Cancel.
Definition title : string16 := utf16 "Title".
Definition message : string16 := utf16 "Message".
Definition detail : string16 := utf16 "Detail".

End Sample.

(** * Properties *)

(** ** Integer conversions and the button array *)

Lemma to_int_id (z : Z) : INT_MIN <= z <= INT_MAX -> to_int z = z.
Proof.
  unfold to_int, INT_MIN, INT_MAX. intros Hz.
  rewrite Z.mod_small by lia. lia.
Qed.

Lemma to_int_range (z : Z) : INT_MIN <= to_int z <= INT_MAX.
Proof.
  unfold to_int, INT_MIN, INT_MAX.
  pose proof (Z.mod_pos_bound (z + 2 ^ 31) (2 ^ 32) ltac:(lia)). lia.
Qed.

(** Converting to [int], subtracting and converting again loses nothing
    more than one conversion. *)
Lemma to_int_sub (z k : Z) : to_int (to_int (z + k) - k) = to_int z.
Proof.
  unfold to_int. f_equal.
  replace ((z + k + 2 ^ 31) mod 2 ^ 32 - 2 ^ 31 - k + 2 ^ 31)
    with ((z + k + 2 ^ 31) mod 2 ^ 32 - k) by lia.
  rewrite Zminus_mod_idemp_l. f_equal. lia.
Qed.

Lemma length_dialog_buttons_of (buttons : list string16) :
  length (dialog_buttons_of buttons) = length buttons.
Proof. unfold dialog_buttons_of. apply length_imap. Qed.

Lemma lookup_dialog_buttons_of (buttons : list string16) (i : nat) :
  dialog_buttons_of buttons !! i =
  (fun b => {| nButtonID := to_int (Z.of_nat i + kIDStart);
               pszButtonText := c_str b |}) <$> buttons !! i.
Proof. unfold dialog_buttons_of. apply list_lookup_imap. Qed.

Lemma dialog_buttons_of_nil (buttons : list string16) :
  dialog_buttons_of buttons = [] <-> buttons = [].
Proof.
  split.
  - intros H. apply (f_equal length) in H.
    rewrite length_dialog_buttons_of in H. by destruct buttons.
  - by intros ->.
Qed.

(** A string without a NUL code unit is passed whole. *)
Lemma c_str_no_NUL (s : string16) : 0 ∉ s -> c_str s = Some s.
Proof.
  unfold c_str. intros Hs. f_equal.
  induction s as [|c s IH]; [done|]. cbn [until_NUL].
  apply not_elem_of_cons in Hs as [Hc Hs].
  destruct (Z.eqb_spec c 0) as [->|_]; [done|]. by rewrite IH.
Qed.

Section Presenter_facts.

Context `{P : Platform}.

(** ** The configuration *)

Lemma pButtons_fill_config parent type cancel_id title message detail icon
    front size :
  pButtons (fill_config parent type cancel_id title message detail icon
              front size) = front.
Proof.
  unfold fill_config.
  destruct icon, type, (empty detail); reflexivity.
Qed.

Lemma pButtons_shown_config parent type buttons cancel_id title message
    detail icon :
  pButtons (shown_config parent type buttons cancel_id title message detail
              icon) = dialog_buttons_of buttons.
Proof. apply pButtons_fill_config. Qed.

Lemma dwCommonButtons_shown_config parent type buttons cancel_id title
    message detail icon :
  dwCommonButtons (shown_config parent type buttons cancel_id title message
                     detail icon) = 0.
Proof.
  unfold shown_config, fill_config.
  destruct icon, type, (empty detail); reflexivity.
Qed.

(** ** The synchronous path, step by step *)

Lemma dialogs_app (tr1 tr2 : list Event) :
  dialogs (tr1 ++ tr2) = dialogs tr1 ++ dialogs tr2.
Proof.
  induction tr1 as [|e tr1 IH]; [done|].
  destruct e; cbn [dialogs app]; by rewrite ?IH.
Qed.

Lemma dialogs_icon_events (icon : ImageSkia) : dialogs (icon_events icon) = [].
Proof.
  destruct icon as [bitmap|]; [|done]. unfold icon_events.
  by destruct (_ =? _).
Qed.

(** With at least one button the function returns: it shows one dialog and
    maps what was stored in [id]. *)
Lemma ShowMessageBoxUTF16_returns cur parent type buttons cancel_id title
    message detail icon w :
  buttons <> [] ->
  let config :=
    shown_config parent type buttons cancel_id title message detail icon in
  let pn := TaskDialogIndirect config in
  let id := default 0 pn in
  ShowMessageBoxUTF16 cur parent type buttons cancel_id title message detail
    icon w =
  Returns
    (if (id =? 0) || (id =? IDCANCEL) then cancel_id
     else to_int (id - kIDStart))
    (set_trace
       (trace w ++ TaskDialogIndirect_called cur config pn :: icon_events icon)
       w).
Proof.
  intros Hne config pn id. subst id pn config.
  unfold ShowMessageBoxUTF16, shown_config.
  destruct (dialog_buttons_of buttons) as [|b0 bs] eqn:Hbs.
  { by apply dialog_buttons_of_nil in Hbs. }
  cbn [address_of_front]. unfold mbind, M_bind, mret, M_ret.
  set (config := fill_config _ _ _ _ _ _ _ _ _).
  unfold call_TaskDialogIndirect, mbind, M_bind, mret, M_ret, emit.
  cbn [trace threads ui_loop].
  destruct (TaskDialogIndirect config) as [v|]; cbn [default from_option id];
    unfold ScopedHICON_destroy, icon_events, emit, mret, M_ret, set_trace;
    destruct icon as [bitmap|]; cbn [trace threads ui_loop];
    try destruct (CreateHICONFromSkBitmap bitmap =? NULL);
    cbn [trace threads ui_loop];
    rewrite <- ?app_assoc; cbn [app];
    try rewrite app_nil_r;
    destruct (_ || _); reflexivity.
Qed.

(** Without buttons, [front ()] is called on an empty vector. *)
Lemma ShowMessageBoxUTF16_no_buttons cur parent type cancel_id title message
    detail icon w :
  ShowMessageBoxUTF16 cur parent type [] cancel_id title message detail
    icon w = Undefined.
Proof. reflexivity. Qed.

(** ** The identifier mapping *)


(** Any other stored identifier than 0 and [IDCANCEL] goes through the
    subtraction, whether a button has it or not. *)
Lemma ShowMessageBoxUTF16_other_id cur parent type buttons cancel_id title
    message detail icon w (v : Z) :
  buttons <> [] ->
  TaskDialogIndirect
    (shown_config parent type buttons cancel_id title message detail icon) =
    Some v ->
  v <> 0 -> v <> IDCANCEL ->
  returned
    (ShowMessageBoxUTF16 cur parent type buttons cancel_id title message
       detail icon w) = Some (to_int (v - kIDStart)).
Proof.
  intros Hne Hpn H0 Hc.
  rewrite (ShowMessageBoxUTF16_returns _ _ _ _ _ _ _ _ _ _ Hne), Hpn.
  cbn [default from_option id returned].
  apply Z.eqb_neq in H0, Hc. by rewrite H0, Hc.
Qed.

Lemma ShowMessageBoxUTF16_cancel_id cur parent type buttons cancel_id title
    message detail icon w :
  buttons <> [] ->
  no_choice
    (TaskDialogIndirect
       (shown_config parent type buttons cancel_id title message detail
          icon)) ->
  returned
    (ShowMessageBoxUTF16 cur parent type buttons cancel_id title message
       detail icon w) = Some cancel_id.
Proof.
  intros Hne Hpn.
  rewrite (ShowMessageBoxUTF16_returns _ _ _ _ _ _ _ _ _ _ Hne).
  by destruct Hpn as [-> | [-> | ->]].
Qed.

(** C3. When what [TaskDialogIndirect] stores is something it may produce
    for the configuration, the synchronous show operation returns a
    zero-based index into the button sequence or the cancel index. The
    positions have to fit the [int] the function returns. *)
Theorem ShowMessageBoxUTF16_index_or_cancel cur parent type buttons cancel_id
    title message detail icon w :
  buttons <> [] ->
  Z.of_nat (length buttons) <= INT_MAX + 1 ->
  may_produce
    (shown_config parent type buttons cancel_id title message detail icon)
    (TaskDialogIndirect
       (shown_config parent type buttons cancel_id title message detail
          icon)) ->
  exists r w',
    ShowMessageBoxUTF16 cur parent type buttons cancel_id title message
      detail icon w = Returns r w' /\
    (0 <= r < Z.of_nat (length buttons) \/ r = cancel_id).
Proof.
  intros Hne Hfit Hmay.
  rewrite (ShowMessageBoxUTF16_returns _ _ _ _ _ _ _ _ _ _ Hne).
  do 2 eexists. split; [reflexivity|].
  destruct Hmay as [Hno | Hbutton].
  { right. by destruct Hno as [-> | [-> | ->]]. }
  apply Exists_exists in Hbutton as (b & Hb & Hpn).
  rewrite Hpn. cbn [default from_option id].
  destruct (_ || _); [by right|]. left.
  rewrite pButtons_shown_config in Hb.
  apply list_elem_of_lookup in Hb as [k Hk].
  rewrite lookup_dialog_buttons_of in Hk.
  destruct (buttons !! k) as [label|] eqn:Hlabel; [|done].
  apply lookup_lt_Some in Hlabel.
  cbn in Hk. injection Hk as <-. cbn [nButtonID].
  rewrite to_int_sub, to_int_id; unfold INT_MIN, INT_MAX in *; lia.
Qed.

End Presenter_facts.

(** C2. When the dialog stores no identifier (or 0) or stores [IDCANCEL],
    the synchronous show operation returns the cancel index it was given;
    a failed native call and a cancelled dialog, here on two platforms,
    give the caller the same value. *)
Theorem ShowMessageBoxUTF16_no_choice (P1 P2 : Platform) cur parent type
    buttons cancel_id title message detail icon w :
  buttons <> [] ->
  no_choice
    (@TaskDialogIndirect P1
       (@shown_config P1 parent type buttons cancel_id title message detail
          icon)) ->
  no_choice
    (@TaskDialogIndirect P2
       (@shown_config P2 parent type buttons cancel_id title message detail
          icon)) ->
  returned
    (@ShowMessageBoxUTF16 P1 cur parent type buttons cancel_id title message
       detail icon w) = Some cancel_id /\
  returned
    (@ShowMessageBoxUTF16 P2 cur parent type buttons cancel_id title message
       detail icon w) =
  returned
    (@ShowMessageBoxUTF16 P1 cur parent type buttons cancel_id title message
       detail icon w).
Proof.
  intros Hne H1 H2.
  rewrite !ShowMessageBoxUTF16_cancel_id by done. done.
Qed.

Section Configuration_facts.

Context `{P : Platform}.

(** ** The dialog that is shown *)

Lemma ShowMessageBoxUTF16_shows cur parent type buttons cancel_id title
    message detail icon w :
  buttons <> [] ->
  exists r w',
    ShowMessageBoxUTF16 cur parent type buttons cancel_id title message
      detail icon w = Returns r w' /\
    dialogs (trace w') =
    dialogs (trace w) ++
    [shown_config parent type buttons cancel_id title message detail icon].
Proof.
  intros Hne.
  rewrite (ShowMessageBoxUTF16_returns _ _ _ _ _ _ _ _ _ _ Hne).
  do 2 eexists. split; [reflexivity|].
  cbn [set_trace trace]. rewrite dialogs_app. cbn [dialogs].
  by rewrite dialogs_icon_events.
Qed.

(** C6. With an empty detail the message is the content of the dialog and
    there is no main instruction; with a detail the message is the main
    instruction and the detail is the content. *)
Theorem ShowMessageBoxUTF16_message_and_detail cur parent type buttons
    cancel_id title message detail icon w :
  buttons <> [] ->
  exists r w' config,
    ShowMessageBoxUTF16 cur parent type buttons cancel_id title message
      detail icon w = Returns r w' /\
    dialogs (trace w') = dialogs (trace w) ++ [config] /\
    (detail = [] ->
     pszContent config = c_str message /\ pszMainInstruction config = None) /\
    (detail <> [] ->
     pszMainInstruction config = c_str message /\
     pszContent config = c_str detail).
Proof.
  intros Hne.
  destruct (ShowMessageBoxUTF16_shows cur parent type buttons cancel_id title
              message detail icon w Hne) as (r & w' & Hrun & Hshown).
  exists r, w', (shown_config parent type buttons cancel_id title message
                   detail icon).
  split; [done|]. split; [done|].
  unfold shown_config, fill_config.
  destruct detail as [|c detail]; cbn [empty];
    (split; [intros Hd | intros Hd]); try done;
    destruct icon, type; done.
Qed.

(** C7. A supplied icon image is converted to a native icon, which becomes
    the main icon of the dialog, flagged as a handle; without an image the
    main icon is the built-in glyph of the type. *)
Theorem ShowMessageBoxUTF16_main_icon cur parent type buttons cancel_id title
    message detail icon w :
  buttons <> [] ->
  exists r w' config,
    ShowMessageBoxUTF16 cur parent type buttons cancel_id title message
      detail icon w = Returns r w' /\
    dialogs (trace w') = dialogs (trace w) ++ [config] /\
    (forall bitmap, icon = Some bitmap ->
     MainIcon_u config = hMainIcon (CreateHICONFromSkBitmap bitmap) /\
     has_flag (dwFlags config) TDF_USE_HICON_MAIN = true) /\
    (icon = None ->
     has_flag (dwFlags config) TDF_USE_HICON_MAIN = false /\
     MainIcon_u config =
     pszMainIcon
       match type with
       | MESSAGE_BOX_TYPE_INFORMATION => TD_INFORMATION_ICON
       | MESSAGE_BOX_TYPE_WARNING => TD_WARNING_ICON
       | MESSAGE_BOX_TYPE_ERROR => TD_ERROR_ICON
       | MESSAGE_BOX_TYPE_unlisted => NULL
       end).
Proof.
  intros Hne.
  destruct (ShowMessageBoxUTF16_shows cur parent type buttons cancel_id title
              message detail icon w Hne) as (r & w' & Hrun & Hshown).
  exists r, w', (shown_config parent type buttons cancel_id title message
                   detail icon).
  split; [done|]. split; [done|].
  unfold shown_config, fill_config. split.
  - intros bitmap ->.
    destruct (cancel_id =? 0), (empty detail); split; reflexivity.
  - intros ->.
    destruct (cancel_id =? 0), (empty detail), type; split; reflexivity.
Qed.

(** C8. The configuration always has [TDF_SIZE_TO_CONTENT], and it has
    [TDF_ALLOW_DIALOG_CANCELLATION] exactly when the cancel index is not
    zero. *)
Theorem ShowMessageBoxUTF16_flags cur parent type buttons cancel_id title
    message detail icon w :
  buttons <> [] ->
  exists r w' config,
    ShowMessageBoxUTF16 cur parent type buttons cancel_id title message
      detail icon w = Returns r w' /\
    dialogs (trace w') = dialogs (trace w) ++ [config] /\
    has_flag (dwFlags config) TDF_SIZE_TO_CONTENT = true /\
    (has_flag (dwFlags config) TDF_ALLOW_DIALOG_CANCELLATION = true <->
     cancel_id <> 0).
Proof.
  intros Hne.
  destruct (ShowMessageBoxUTF16_shows cur parent type buttons cancel_id title
              message detail icon w Hne) as (r & w' & Hrun & Hshown).
  exists r, w', (shown_config parent type buttons cancel_id title message
                   detail icon).
  split; [done|]. split; [done|].
  unfold shown_config, fill_config.
  destruct (Z.eqb_spec cancel_id 0) as [Hc|Hc];
    destruct icon, type, (empty detail);
    (split; [reflexivity|]); split; intros H; done.
Qed.

(** C10. The synchronous show operation is defined exactly for a button
    sequence that is not empty: without buttons it takes the front of an
    empty vector. *)
Theorem ShowMessageBoxUTF16_defined_iff cur parent type buttons cancel_id
    title message detail icon w :
  (buttons = [] <->
   ShowMessageBoxUTF16 cur parent type buttons cancel_id title message
     detail icon w = Undefined) /\
  (buttons <> [] <->
   exists r w',
     ShowMessageBoxUTF16 cur parent type buttons cancel_id title message
       detail icon w = Returns r w').
Proof.
  destruct buttons as [|b buttons].
  - rewrite ShowMessageBoxUTF16_no_buttons. split; split; try done.
    intros (r & w' & H). discriminate H.
  - assert (Hne : b :: buttons <> []) by done.
    rewrite (ShowMessageBoxUTF16_returns _ _ _ _ _ _ _ _ _ _ Hne).
    split; split; try done. intros _. eauto.
Qed.

(** C9. [ShowErrorBox] does nothing: it returns, and the world — trace,
    thread objects and pending tasks — is the one it was called in. *)
Theorem ShowErrorBox_does_nothing (title content : string16) (w : World) :
  ShowErrorBox title content w = Returns tt w.
Proof. reflexivity. Qed.

End Configuration_facts.

Section Asynchronous_facts.

Context `{P : Platform}.

(** ** The synchronous [ShowMessageBox] *)

(** It returns what [ShowMessageBoxUTF16] returns for the converted
    strings. *)
Lemma ShowMessageBox_returned cur parent type buttons cancel_id title message
    detail icon w :
  returned
    (ShowMessageBox cur parent type buttons cancel_id title message detail
       icon w) =
  returned
    (ShowMessageBoxUTF16 cur
       match parent with Some p => GetAcceleratedWidget p | None => NULL end
       type (map UTF8ToUTF16 buttons) cancel_id (UTF8ToUTF16 title)
       (UTF8ToUTF16 message) (UTF8ToUTF16 detail) icon w).
Proof.
  unfold ShowMessageBox, mbind, M_bind.
  destruct (decide (map UTF8ToUTF16 buttons = [])) as [Hnil|Hne].
  { rewrite Hnil. by destruct parent. }
  destruct parent; cbn [DialogScope_ctor DialogScope_dtor emit mret M_ret];
    rewrite !(ShowMessageBoxUTF16_returns _ _ _ _ _ _ _ _ _ _ Hne);
    reflexivity.
Qed.

(** The value does not depend on the thread or the world of the call, and
    the call touches neither thread objects nor pending tasks. *)
Lemma ShowMessageBox_anywhere cur0 w0 cur w parent type buttons cancel_id
    title message detail icon v :
  returned
    (ShowMessageBox cur0 parent type buttons cancel_id title message detail
       icon w0) = Some v ->
  exists w',
    ShowMessageBox cur parent type buttons cancel_id title message detail
      icon w = Returns v w' /\
    threads w' = threads w /\ ui_loop w' = ui_loop w.
Proof.
  rewrite ShowMessageBox_returned. intros Hv.
  unfold ShowMessageBox, mbind, M_bind.
  destruct (decide (map UTF8ToUTF16 buttons = [])) as [Hnil|Hne].
  { rewrite Hnil in Hv. discriminate Hv. }
  rewrite (ShowMessageBoxUTF16_returns _ _ _ _ _ _ _ _ _ _ Hne) in Hv.
  cbn [returned] in Hv. injection Hv as Hv.
  destruct parent; cbn [DialogScope_ctor DialogScope_dtor emit mret M_ret];
    rewrite (ShowMessageBoxUTF16_returns _ _ _ _ _ _ _ _ _ _ Hne);
    cbn [DialogScope_dtor emit mret M_ret trace threads ui_loop set_trace];
    (eexists; split; [rewrite Hv; reflexivity | done]).
Qed.

(** ** Thread objects *)

Lemma with_thread_alive {A : Type} (t : nat) (f : Thread -> M A) th w :
  threads w !! t = Some th -> with_thread t f w = f th w.
Proof. unfold with_thread. by intros ->. Qed.

Lemma fresh_thread_unused (w : World) :
  threads w !! fresh (dom (threads w)) = None.
Proof. apply not_elem_of_dom, is_fresh. Qed.

Lemma thread_step_runs (t : nat) th task rest w :
  threads w !! t = Some th ->
  message_loop th = task :: rest ->
  thread_step t w =
  run_task (base_Thread t) task
    (set_threads
       (<[t := {| thread_name := thread_name th;
                  com_with_mta := com_with_mta th;
                  running := running th; message_loop := rest |}]>
          (threads w)) w).
Proof.
  intros Hth Hloop. unfold thread_step.
  rewrite Hth, Hloop. reflexivity.
Qed.

(** When the thread starts, the asynchronous overload leaves it running,
    with the bound [RunMessageBoxInNewThread] as its only pending task. *)
Lemma ShowMessageBox_async_posts cur parent type buttons cancel_id title
    message detail icon callback w :
  Thread_Start (fresh (dom (threads w))) = true ->
  ShowMessageBox_async cur parent type buttons cancel_id title message detail
    icon callback w =
  Returns tt
    (set_threads
       (<[fresh (dom (threads w)) :=
            MessageBoxThread
              [Bind_RunMessageBoxInNewThread (fresh (dom (threads w))) parent
                 type buttons cancel_id title message detail icon callback]]>
          (threads w)) w).
Proof.
  intros Hstart.
  unfold ShowMessageBox_async, mbind, M_bind, new_Thread.
  set (t := fresh (dom (threads w))) in *.
  unfold init_com_with_mta.
  erewrite with_thread_alive by apply lookup_insert_eq.
  unfold store_thread. cbn [threads set_threads thread_name running
                              message_loop com_with_mta].
  rewrite insert_insert_eq. unfold Start.
  erewrite with_thread_alive by apply lookup_insert_eq.
  rewrite Hstart. unfold mbind, M_bind, store_thread.
  cbn [threads set_threads thread_name running message_loop com_with_mta
         mret M_ret negb].
  rewrite insert_insert_eq. unfold message_loop_PostTask.
  erewrite with_thread_alive by apply lookup_insert_eq.
  cbn [running]. unfold store_thread.
  cbn [threads set_threads thread_name running message_loop com_with_mta app].
  rewrite insert_insert_eq. reflexivity.
Qed.

(** ** The asynchronous overload *)

(** C4. When the worker thread does not start, the asynchronous overload
    returns after running the callback, on the calling thread, with the
    cancel index: that is the only event, so no dialog is shown, and nothing
    is posted and no thread object is left. *)
Theorem ShowMessageBox_async_start_fails cur parent type buttons cancel_id
    title message detail icon callback w :
  Thread_Start (fresh (dom (threads w))) = false ->
  ShowMessageBox_async cur parent type buttons cancel_id title message detail
    icon callback w =
  Returns tt (set_trace (trace w ++ [callback_Run cur callback cancel_id]) w)
  /\ dialogs (trace w ++ [callback_Run cur callback cancel_id]) =
     dialogs (trace w).
Proof.
  intros Hstart. split.
  - unfold ShowMessageBox_async, mbind, M_bind, new_Thread.
    set (t := fresh (dom (threads w))) in *.
    unfold init_com_with_mta.
    erewrite with_thread_alive by apply lookup_insert_eq.
    unfold store_thread. cbn [threads set_threads thread_name running
                                message_loop com_with_mta].
    rewrite insert_insert_eq. unfold Start.
    erewrite with_thread_alive by apply lookup_insert_eq.
    rewrite Hstart. cbn [mret M_ret negb]. unfold Run, emit.
    cbn [threads set_threads trace ui_loop]. unfold delete_Thread.
    erewrite with_thread_alive by apply lookup_insert_eq.
    cbn [threads set_threads trace ui_loop].
    rewrite delete_insert_id by apply fresh_thread_unused.
    reflexivity.
  - rewrite dialogs_app. cbn [dialogs]. apply app_nil_r.
Qed.

(** C5. When the worker thread starts, the asynchronous overload posts the
    bound [RunMessageBoxInNewThread] to it and returns. The worker's turn
    runs the synchronous [ShowMessageBox] and posts to the UI thread, in
    this order, the callback bound to the value [v] that the synchronous
    operation returns for these arguments, and the deletion of the thread
    object. When the UI thread comes to these two tasks the callback runs
    there with [v] and the thread object is deleted. *)
Theorem ShowMessageBox_async_delivers cur parent type buttons cancel_id
    title message detail icon callback w cur0 w0 v :
  Thread_Start (fresh (dom (threads w))) = true ->
  returned
    (ShowMessageBox cur0 parent type buttons cancel_id title message detail
       icon w0) = Some v ->
  exists w1 w2,
    ShowMessageBox_async cur parent type buttons cancel_id title message
      detail icon callback w = Returns tt w1 /\
    trace w1 = trace w /\ ui_loop w1 = ui_loop w /\
    thread_step (fresh (dom (threads w))) w1 = Returns tt w2 /\
    ui_loop w2 =
    ui_loop w ++
    [Bind_callback callback v; DeleteSoon_thread (fresh (dom (threads w)))] /\
    is_Some (threads w2 !! fresh (dom (threads w))) /\
    forall w3 rest,
      ui_loop w3 =
      Bind_callback callback v ::
      DeleteSoon_thread (fresh (dom (threads w))) :: rest ->
      is_Some (threads w3 !! fresh (dom (threads w))) ->
      exists w4,
        (ui_step ≫= fun _ => ui_step) w3 = Returns tt w4 /\
        trace w4 = trace w3 ++ [callback_Run BrowserThread_UI callback v] /\
        threads w4 = delete (fresh (dom (threads w))) (threads w3) /\
        ui_loop w4 = rest.
Proof.
  intros Hstart Hv.
  set (t := fresh (dom (threads w))) in *.
  destruct (ShowMessageBox_anywhere cur0 w0 (base_Thread t)
              (set_threads (<[t := MessageBoxThread []]> (threads w)) w)
              parent type buttons cancel_id title message detail icon v Hv)
    as (w' & Hsync & Hthreads & Hloop).
  cbn [threads ui_loop set_threads] in Hthreads, Hloop.
  exists (set_threads
            (<[t := MessageBoxThread
                      [Bind_RunMessageBoxInNewThread t parent type buttons
                         cancel_id title message detail icon callback]]>
               (threads w)) w),
    (set_ui_loop
       (ui_loop w ++ [Bind_callback callback v; DeleteSoon_thread t]) w').
  split; [by apply ShowMessageBox_async_posts|].
  split; [reflexivity|]. split; [reflexivity|].
  split; [|split; [reflexivity|split]].
  - (* the worker's turn *)
    erewrite thread_step_runs;
      [|apply lookup_insert_eq|reflexivity].
    cbn [threads set_threads thread_name running message_loop com_with_mta
           MessageBoxThread run_task].
    rewrite insert_insert_eq.
    unfold RunMessageBoxInNewThread, mbind, M_bind.
    fold (MessageBoxThread []).
    change (set_threads _ (set_threads _ w))
      with (set_threads (<[t := MessageBoxThread []]> (threads w)) w).
    rewrite Hsync.
    unfold BrowserThread_DeleteSoon_UI, BrowserThread_PostTask_UI, set_ui_loop.
    cbn [ui_loop threads trace].
    rewrite Hloop, <- app_assoc. reflexivity.
  - cbn [threads set_ui_loop]. rewrite Hthreads, lookup_insert_eq. eauto.
  - (* the UI thread's turns *)
    intros w3 rest Hq [th Hth].
    unfold ui_step, mbind, M_bind. rewrite Hq. cbn [run_task].
    unfold Run, emit. cbn [ui_loop set_ui_loop threads trace run_task].
    unfold delete_Thread.
    erewrite with_thread_alive by (cbn [threads]; exact Hth).
    eexists. split; [reflexivity|]. done.
Qed.

End Asynchronous_facts.

(** * Sample runs *)

(** The scenarios of the specification: buttons OK and Cancel, cancel index
    1; the user picks OK, or dismisses the dialog. *)
Example picks_OK :
  returned
    (@ShowMessageBox (Sample.answers (Some 100)) BrowserThread_UI None
       MESSAGE_BOX_TYPE_INFORMATION Sample.OK_Cancel 1 "Title" "Message" EmptyString
       None Sample.world) = Some 0.
Proof. reflexivity. Qed.

Example dismisses :
  returned
    (@ShowMessageBox (Sample.answers (Some IDCANCEL)) BrowserThread_UI None
       MESSAGE_BOX_TYPE_INFORMATION Sample.OK_Cancel 1 "Title" "Message" EmptyString
       None Sample.world) = Some 1.
Proof. reflexivity. Qed.

(** An identifier no button has is not checked: it goes through the
    subtraction. *)
Example unassigned_identifier :
  returned
    (@ShowMessageBoxUTF16 (Sample.answers (Some 1)) BrowserThread_UI NULL
       MESSAGE_BOX_TYPE_INFORMATION Sample.labels 1 Sample.title
       Sample.message [] None Sample.world) = Some (-99).
Proof. reflexivity. Qed.

(** A whole asynchronous call: the overload, the worker's turn, and two
    turns of the UI thread. *)
Example asynchronous_run :
  (_ ← @ShowMessageBox_async (Sample.answers (Some 101)) BrowserThread_UI
         None MESSAGE_BOX_TYPE_WARNING Sample.OK_Cancel 0 "Title" "Message"
         "Detail" None 9%nat;
   _ ← @thread_step (Sample.answers (Some 101)) 0%nat;
   _ ← @ui_step (Sample.answers (Some 101));
   @ui_step (Sample.answers (Some 101))) Sample.world =
  Returns tt
    {| trace :=
         [TaskDialogIndirect_called (base_Thread 0)
            (@shown_config (Sample.answers (Some 101)) NULL
               MESSAGE_BOX_TYPE_WARNING Sample.labels 0 Sample.title
               Sample.message Sample.detail None) (Some 101);
          callback_Run BrowserThread_UI 9%nat 1];
       threads := ∅;
       ui_loop := [] |}.
Proof. vm_compute. reflexivity. Qed.


Lemma ShowMessageBoxUTF16_no_choice_witness :
  returned
    (@ShowMessageBoxUTF16 (Sample.answers None) BrowserThread_UI NULL
       MESSAGE_BOX_TYPE_INFORMATION Sample.labels 1 Sample.title
       Sample.message [] None Sample.world) = Some 1 /\
  returned
    (@ShowMessageBoxUTF16 (Sample.answers (Some IDCANCEL)) BrowserThread_UI
       NULL MESSAGE_BOX_TYPE_INFORMATION Sample.labels 1 Sample.title
       Sample.message [] None Sample.world) =
  returned
    (@ShowMessageBoxUTF16 (Sample.answers None) BrowserThread_UI NULL
       MESSAGE_BOX_TYPE_INFORMATION Sample.labels 1 Sample.title
       Sample.message [] None Sample.world).
Proof.
  apply (ShowMessageBoxUTF16_no_choice (Sample.answers None)
           (Sample.answers (Some IDCANCEL))).
  - discriminate.
  - left. reflexivity.
  - right. right. reflexivity.
Defined.

Lemma ShowMessageBoxUTF16_index_or_cancel_witness :
  exists r w',
    @ShowMessageBoxUTF16 (Sample.answers (Some 101)) BrowserThread_UI NULL
      MESSAGE_BOX_TYPE_INFORMATION Sample.labels 0 Sample.title
      Sample.message [] None Sample.world = Returns r w' /\
    (0 <= r < Z.of_nat (length Sample.labels) \/ r = 0).
Proof.
  apply (@ShowMessageBoxUTF16_index_or_cancel (Sample.answers (Some 101))).
  - discriminate.
  - vm_compute. discriminate.
  - right. apply Exists_cons_tl, Exists_cons_hd. reflexivity.
Defined.

Lemma ShowMessageBoxUTF16_message_and_detail_witness :
  exists r w' config,
    @ShowMessageBoxUTF16 (Sample.answers (Some 100)) BrowserThread_UI NULL
      MESSAGE_BOX_TYPE_INFORMATION Sample.labels 1 Sample.title
      Sample.message Sample.detail None Sample.world = Returns r w' /\
    dialogs (trace w') = dialogs (trace Sample.world) ++ [config] /\
    (Sample.detail = [] ->
     pszContent config = c_str Sample.message /\
     pszMainInstruction config = None) /\
    (Sample.detail <> [] ->
     pszMainInstruction config = c_str Sample.message /\
     pszContent config = c_str Sample.detail).
Proof.
  apply (@ShowMessageBoxUTF16_message_and_detail (Sample.answers (Some 100))).
  discriminate.
Defined.

Lemma ShowMessageBoxUTF16_main_icon_witness :
  exists r w' config,
    @ShowMessageBoxUTF16 (Sample.answers (Some 100)) BrowserThread_UI NULL
      MESSAGE_BOX_TYPE_ERROR Sample.labels 1 Sample.title Sample.message []
      (Some 5%nat) Sample.world = Returns r w' /\
    dialogs (trace w') = dialogs (trace Sample.world) ++ [config] /\
    (forall bitmap, Some 5%nat = Some bitmap ->
     MainIcon_u config =
     hMainIcon (@CreateHICONFromSkBitmap (Sample.answers (Some 100)) bitmap) /\
     has_flag (dwFlags config) TDF_USE_HICON_MAIN = true) /\
    (Some 5%nat = None ->
     has_flag (dwFlags config) TDF_USE_HICON_MAIN = false /\
     MainIcon_u config = pszMainIcon TD_ERROR_ICON).
Proof.
  apply (@ShowMessageBoxUTF16_main_icon (Sample.answers (Some 100))).
  discriminate.
Defined.

Lemma ShowMessageBoxUTF16_flags_witness :
  exists r w' config,
    @ShowMessageBoxUTF16 (Sample.answers (Some 100)) BrowserThread_UI NULL
      MESSAGE_BOX_TYPE_ERROR Sample.labels 1 Sample.title Sample.message []
      None Sample.world = Returns r w' /\
    dialogs (trace w') = dialogs (trace Sample.world) ++ [config] /\
    has_flag (dwFlags config) TDF_SIZE_TO_CONTENT = true /\
    (has_flag (dwFlags config) TDF_ALLOW_DIALOG_CANCELLATION = true <->
     1 <> 0).
Proof.
  apply (@ShowMessageBoxUTF16_flags (Sample.answers (Some 100))).
  discriminate.
Defined.

Lemma ShowMessageBox_async_start_fails_witness :
  @ShowMessageBox_async Sample.no_threads BrowserThread_UI None
    MESSAGE_BOX_TYPE_WARNING Sample.OK_Cancel 1 "Title" "Message" "Detail"
    None 9%nat Sample.world =
  Returns tt
    (set_trace (trace Sample.world ++ [callback_Run BrowserThread_UI 9%nat 1])
       Sample.world)
  /\ dialogs (trace Sample.world ++ [callback_Run BrowserThread_UI 9%nat 1]) =
     dialogs (trace Sample.world).
Proof.
  apply (@ShowMessageBox_async_start_fails Sample.no_threads).
  reflexivity.
Defined.

Lemma ShowMessageBox_async_delivers_witness :
  exists w1 w2,
    @ShowMessageBox_async (Sample.answers (Some 101)) BrowserThread_UI None
      MESSAGE_BOX_TYPE_WARNING Sample.OK_Cancel 0 "Title" "Message" "Detail"
      None 9%nat Sample.world = Returns tt w1 /\
    @thread_step (Sample.answers (Some 101))
      (fresh (dom (threads Sample.world))) w1 = Returns tt w2 /\
    ui_loop w2 =
    [Bind_callback 9%nat 1;
     DeleteSoon_thread (fresh (dom (threads Sample.world)))].
Proof.
  destruct (@ShowMessageBox_async_delivers (Sample.answers (Some 101))
              BrowserThread_UI None MESSAGE_BOX_TYPE_WARNING Sample.OK_Cancel
              0 "Title"%string "Message"%string "Detail"%string None 9%nat
              Sample.world BrowserThread_UI Sample.world 1
              ltac:(reflexivity) ltac:(reflexivity))
    as (w1 & w2 & Hcall & _ & _ & Hturn & Hposted & _).
  exists w1, w2. split; [exact Hcall|]. split; [exact Hturn|]. exact Hposted.
Defined.

(** * Further properties of the presenter *)

Section Synchronous_facts.

Context `{P : Platform}.

Lemma map_UTF8ToUTF16_nil (buttons : list string) :
  map UTF8ToUTF16 buttons = [] <-> buttons = [].
Proof. split; [apply map_eq_nil | by intros ->]. Qed.

(** The whole effect of the synchronous [ShowMessageBox]. *)
Lemma ShowMessageBox_effect cur parent type buttons cancel_id title message
    detail icon w :
  buttons <> [] ->
  let config :=
    shown_config
      match parent with Some p => GetAcceleratedWidget p | None => NULL end
      type (map UTF8ToUTF16 buttons) cancel_id (UTF8ToUTF16 title)
      (UTF8ToUTF16 message) (UTF8ToUTF16 detail) icon in
  let stored := default 0 (TaskDialogIndirect config) in
  ShowMessageBox cur parent type buttons cancel_id title message detail
    icon w =
  Returns
    (if (stored =? 0) || (stored =? IDCANCEL) then cancel_id
     else to_int (stored - kIDStart))
    (set_trace
       (trace w ++
        match parent with Some p => [DialogScope_enter p] | None => [] end ++
        TaskDialogIndirect_called cur config (TaskDialogIndirect config) ::
        icon_events icon ++
        match parent with Some p => [DialogScope_leave p] | None => [] end)
       w).
Proof.
  intros Hne config stored. subst stored config.
  assert (Hne16 : map UTF8ToUTF16 buttons <> [])
    by (by rewrite map_UTF8ToUTF16_nil).
  unfold ShowMessageBox, mbind, M_bind.
  destruct parent as [p|];
    cbn [DialogScope_ctor DialogScope_dtor emit mret M_ret];
    rewrite (ShowMessageBoxUTF16_returns _ _ _ _ _ _ _ _ _ _ Hne16);
    cbn [DialogScope_dtor emit mret M_ret trace threads ui_loop set_trace].
  - unfold set_trace. f_equal. f_equal.
    rewrite <- !app_assoc. reflexivity.
  - by rewrite app_nil_r.
Qed.

(** X2. For a button sequence that is not empty the synchronous
    [ShowMessageBox] shows exactly one dialog, for the owner's window handle
    or for no owner, between entering and leaving the owner's dialog scope;
    it creates or deletes no thread object and posts no task. *)
Theorem ShowMessageBox_shows_one_dialog cur parent type buttons cancel_id
    title message detail icon w :
  buttons <> [] ->
  exists r w' config,
    ShowMessageBox cur parent type buttons cancel_id title message detail
      icon w = Returns r w' /\
    trace w' =
    trace w ++
    match parent with Some p => [DialogScope_enter p] | None => [] end ++
    TaskDialogIndirect_called cur config (TaskDialogIndirect config) ::
    icon_events icon ++
    match parent with Some p => [DialogScope_leave p] | None => [] end /\
    hwndParent config =
    match parent with Some p => GetAcceleratedWidget p | None => NULL end /\
    pszWindowTitle config = c_str (UTF8ToUTF16 title) /\
    threads w' = threads w /\ ui_loop w' = ui_loop w.
Proof.
  intros Hne.
  rewrite (ShowMessageBox_effect _ _ _ _ _ _ _ _ _ _ Hne).
  do 3 eexists. split; [reflexivity|]. split; [reflexivity|].
  split; [|split; [|done]];
    unfold shown_config, fill_config;
    destruct icon, type, (empty (UTF8ToUTF16 detail)); reflexivity.
Qed.

(** X3. The synchronous [ShowMessageBox] is undefined exactly for the empty
    button sequence, with or without an owner window. *)
Theorem ShowMessageBox_defined_iff cur parent type buttons cancel_id title
    message detail icon w :
  buttons = [] <->
  ShowMessageBox cur parent type buttons cancel_id title message detail
    icon w = Undefined.
Proof.
  destruct buttons as [|b buttons].
  - split; [intros _|done]. by destruct parent.
  - assert (Hne : b :: buttons <> []) by done.
    rewrite (ShowMessageBox_effect _ _ _ _ _ _ _ _ _ _ Hne). done.
Qed.

(** X4. A stored identifier below [kIDStart] that is neither 0 nor
    [IDCANCEL] is not rejected: the function returns the negative number
    [id - kIDStart], which is no index of a button. *)
Theorem ShowMessageBoxUTF16_small_identifier cur parent type buttons
    cancel_id title message detail icon w (v : Z) :
  buttons <> [] ->
  TaskDialogIndirect
    (shown_config parent type buttons cancel_id title message detail icon) =
    Some v ->
  0 < v < kIDStart -> v <> IDCANCEL ->
  exists w',
    ShowMessageBoxUTF16 cur parent type buttons cancel_id title message
      detail icon w = Returns (v - kIDStart) w' /\
    v - kIDStart < 0.
Proof.
  intros Hne Hpn Hv Hc.
  rewrite (ShowMessageBoxUTF16_returns _ _ _ _ _ _ _ _ _ _ Hne), Hpn.
  cbn [default from_option id].
  assert (H0 : (v =? 0) = false) by (apply Z.eqb_neq; lia).
  apply Z.eqb_neq in Hc. rewrite H0, Hc. cbn [orb].
  unfold kIDStart in *.
  rewrite to_int_id by (unfold INT_MIN, INT_MAX; lia).
  eexists. split; [reflexivity|lia].
Qed.

Lemma ShowMessageBoxUTF16_pressed_value cur parent type buttons cancel_id
    title message detail icon w (i : nat) :
  Z.of_nat i + kIDStart <= INT_MAX ->
  presses (shown_config parent type buttons cancel_id title message detail
             icon) i ->
  returned
    (ShowMessageBoxUTF16 cur parent type buttons cancel_id title message
       detail icon w) = Some (Z.of_nat i).
Proof.
  unfold presses. intros Hfit Hpn.
  rewrite pButtons_shown_config, lookup_dialog_buttons_of in Hpn.
  destruct (buttons !! i) as [label|] eqn:Hi; [|done].
  cbn in Hpn.
  assert (Hne : buttons <> []) by (intros ->; done).
  rewrite to_int_id in Hpn
    by (unfold INT_MIN, INT_MAX, kIDStart in *; lia).
  rewrite (ShowMessageBoxUTF16_other_id _ _ _ _ _ _ _ _ _ _ _ Hne Hpn)
    by (unfold kIDStart, IDCANCEL; lia).
  cbn. f_equal.
  replace (Z.of_nat i + kIDStart - kIDStart) with (Z.of_nat i) by lia.
  apply to_int_id. unfold INT_MIN, INT_MAX, kIDStart in *. lia.
Qed.

End Synchronous_facts.

(** X5. When the cancel index is the position of a button, the caller
    cannot tell that button from a dialog that was cancelled or failed: on a
    platform where the user presses the button and on one where the dialog
    ends without a choice the function returns the same value. *)
Theorem ShowMessageBoxUTF16_cancel_index_of_button (P1 P2 : Platform) cur
    parent type buttons title message detail icon w (i : nat) :
  Z.of_nat i + kIDStart <= INT_MAX ->
  @presses P1
    (@shown_config P1 parent type buttons (Z.of_nat i) title message detail
       icon) i ->
  no_choice
    (@TaskDialogIndirect P2
       (@shown_config P2 parent type buttons (Z.of_nat i) title message
          detail icon)) ->
  returned
    (@ShowMessageBoxUTF16 P1 cur parent type buttons (Z.of_nat i) title
       message detail icon w) =
  returned
    (@ShowMessageBoxUTF16 P2 cur parent type buttons (Z.of_nat i) title
       message detail icon w).
Proof.
  intros Hfit Hpress Hno.
  rewrite (ShowMessageBoxUTF16_pressed_value _ _ _ _ _ _ _ _ _ _ _ Hfit Hpress).
  assert (Hne : buttons <> []).
  { intros ->. unfold presses in Hpress.
    rewrite pButtons_shown_config in Hpress. done. }
  by rewrite ShowMessageBoxUTF16_cancel_id.
Qed.

Section Dialog_facts.

Context `{P : Platform}.

Lemma cButtons_shown_config parent type buttons cancel_id title message
    detail icon :
  cButtons (shown_config parent type buttons cancel_id title message detail
              icon) = to_UINT (Z.of_nat (length buttons)).
Proof.
  unfold shown_config, fill_config. rewrite length_dialog_buttons_of.
  destruct icon, type, (empty detail); reflexivity.
Qed.

Lemma lookup_nButtonID (buttons : list string16) (i : nat) :
  Z.of_nat (length buttons) + kIDStart - 1 <= INT_MAX ->
  (i < length buttons)%nat ->
  (nButtonID <$> dialog_buttons_of buttons) !! i =
  Some (Z.of_nat i + kIDStart).
Proof.
  intros Hfit Hi. rewrite list_lookup_fmap, lookup_dialog_buttons_of.
  destruct (lookup_lt_is_Some_2 buttons i Hi) as [label ->].
  cbn. f_equal. apply to_int_id.
  unfold INT_MIN, INT_MAX, kIDStart in *. lia.
Qed.

(** X1. The button array handed to the dialog is well formed: its count is
    the number of its entries, the texts are the labels in their order, and
    the identifiers are pairwise distinct and at least [kIDStart], so none
    is 0 or [IDCANCEL]. The identifiers have to fit an [int]. *)
Theorem ShowMessageBoxUTF16_button_array cur parent type buttons cancel_id
    title message detail icon w :
  buttons <> [] ->
  Z.of_nat (length buttons) + kIDStart - 1 <= INT_MAX ->
  exists r w' config,
    ShowMessageBoxUTF16 cur parent type buttons cancel_id title message
      detail icon w = Returns r w' /\
    dialogs (trace w') = dialogs (trace w) ++ [config] /\
    cButtons config = Z.of_nat (length (pButtons config)) /\
    pszButtonText <$> pButtons config = c_str <$> buttons /\
    Forall (fun b => kIDStart <= nButtonID b /\ nButtonID b <> 0 /\
                     nButtonID b <> IDCANCEL) (pButtons config) /\
    NoDup (nButtonID <$> pButtons config).
Proof.
  intros Hne Hfit.
  destruct (ShowMessageBoxUTF16_shows cur parent type buttons cancel_id title
              message detail icon w Hne) as (r & w' & Hrun & Hshown).
  exists r, w', (shown_config parent type buttons cancel_id title message
                   detail icon).
  split; [done|]. split; [done|].
  rewrite cButtons_shown_config, pButtons_shown_config,
    length_dialog_buttons_of.
  split; [|split; [|split]].
  - unfold to_UINT. apply Z.mod_small.
    unfold INT_MAX, kIDStart in Hfit. lia.
  - apply list_eq. intros i.
    rewrite !list_lookup_fmap, lookup_dialog_buttons_of.
    by destruct (buttons !! i).
  - apply Forall_lookup. intros i b Hb.
    assert (Hi : (i < length buttons)%nat).
    { apply lookup_lt_Some in Hb. by rewrite length_dialog_buttons_of in Hb. }
    pose proof (lookup_nButtonID buttons i Hfit Hi) as Hid.
    rewrite list_lookup_fmap, Hb in Hid. cbn in Hid. injection Hid as ->.
    unfold kIDStart, IDCANCEL. lia.
  - apply NoDup_alt. intros i j x Hi Hj.
    assert (Hi' : (i < length buttons)%nat).
    { apply lookup_lt_Some in Hi.
      by rewrite length_fmap, length_dialog_buttons_of in Hi. }
    assert (Hj' : (j < length buttons)%nat).
    { apply lookup_lt_Some in Hj.
      by rewrite length_fmap, length_dialog_buttons_of in Hj. }
    rewrite (lookup_nButtonID buttons i Hfit Hi') in Hi.
    rewrite (lookup_nButtonID buttons j Hfit Hj') in Hj.
    injection Hi as <-. injection Hj as Hj. lia.
Qed.

(** X6. Beside showing the dialog the function leaves one more event at
    most: an icon it created for a supplied image, and that is not null, is
    the main icon of the dialog and is destroyed after the dialog was shown.
    Without an image, or when no icon could be created, nothing is
    destroyed. *)
Theorem ShowMessageBoxUTF16_icon_lifetime cur parent type buttons cancel_id
    title message detail icon w :
  buttons <> [] ->
  exists r w' config,
    ShowMessageBoxUTF16 cur parent type buttons cancel_id title message
      detail icon w = Returns r w' /\
    (forall bitmap,
       icon = Some bitmap -> CreateHICONFromSkBitmap bitmap <> NULL ->
       MainIcon_u config = hMainIcon (CreateHICONFromSkBitmap bitmap) /\
       trace w' =
       trace w ++
       [TaskDialogIndirect_called cur config (TaskDialogIndirect config);
        DestroyIcon (CreateHICONFromSkBitmap bitmap)]) /\
    (icon = None \/
     (exists bitmap,
        icon = Some bitmap /\ CreateHICONFromSkBitmap bitmap = NULL) ->
     trace w' =
     trace w ++
     [TaskDialogIndirect_called cur config (TaskDialogIndirect config)]).
Proof.
  intros Hne.
  rewrite (ShowMessageBoxUTF16_returns _ _ _ _ _ _ _ _ _ _ Hne).
  do 3 eexists. split; [reflexivity|]. cbn [trace set_trace]. split.
  - intros bitmap -> Hh. cbn [icon_events].
    apply Z.eqb_neq in Hh. rewrite Hh. split; [|done].
    unfold shown_config, fill_config.
    destruct type, (empty detail); reflexivity.
  - intros [-> | (bitmap & -> & Hh)]; cbn [icon_events]; [done|].
    by rewrite Hh.
Qed.

(** X10. The dialog never gets a flag beside [TDF_SIZE_TO_CONTENT],
    [TDF_ALLOW_DIALOG_CANCELLATION] and [TDF_USE_HICON_MAIN], and it asks
    for no common button. *)
Theorem ShowMessageBoxUTF16_no_other_flag cur parent type buttons cancel_id
    title message detail icon w :
  buttons <> [] ->
  exists r w' config,
    ShowMessageBoxUTF16 cur parent type buttons cancel_id title message
      detail icon w = Returns r w' /\
    dialogs (trace w') = dialogs (trace w) ++ [config] /\
    has_flag
      (Z.lor (Z.lor TDF_SIZE_TO_CONTENT TDF_ALLOW_DIALOG_CANCELLATION)
         TDF_USE_HICON_MAIN) (dwFlags config) = true /\
    dwCommonButtons config = 0.
Proof.
  intros Hne.
  destruct (ShowMessageBoxUTF16_shows cur parent type buttons cancel_id title
              message detail icon w Hne) as (r & w' & Hrun & Hshown).
  exists r, w', (shown_config parent type buttons cancel_id title message
                   detail icon).
  split; [done|]. split; [done|].
  split; [|apply dwCommonButtons_shown_config].
  unfold shown_config, fill_config.
  destruct (cancel_id =? 0), icon, type, (empty detail); reflexivity.
Qed.

(** X11. The test for a detail looks at the length of the string, the
    dialog reads it up to the first NUL: a detail that begins with a NUL
    makes the message the main instruction, over an empty content. *)
Theorem ShowMessageBoxUTF16_detail_NUL cur parent type buttons cancel_id
    title message detail icon w :
  buttons <> [] ->
  exists r w' config,
    ShowMessageBoxUTF16 cur parent type buttons cancel_id title message
      (0 :: detail) icon w = Returns r w' /\
    dialogs (trace w') = dialogs (trace w) ++ [config] /\
    pszMainInstruction config = c_str message /\
    pszContent config = Some [].
Proof.
  intros Hne.
  destruct (ShowMessageBoxUTF16_shows cur parent type buttons cancel_id title
              message (0 :: detail) icon w Hne) as (r & w' & Hrun & Hshown).
  exists r, w', (shown_config parent type buttons cancel_id title message
                   (0 :: detail) icon).
  split; [done|]. split; [done|].
  unfold shown_config, fill_config. cbn [empty].
  destruct icon, type; split; reflexivity.
Qed.

End Dialog_facts.

Section Run_facts.

Context `{P : Platform}.

(** X7. A whole asynchronous call on an idle UI thread: the overload, the
    turn of the worker and two turns of the UI thread leave the trace of one
    synchronous [ShowMessageBox] made on the worker thread, followed by one
    run of the callback on the UI thread with the value of that call. The
    thread object is gone and no task is pending. *)
Theorem ShowMessageBox_async_complete_run cur parent type buttons cancel_id
    title message detail icon callback w :
  Thread_Start (fresh (dom (threads w))) = true ->
  buttons <> [] ->
  ui_loop w = [] ->
  exists v ws,
    ShowMessageBox (base_Thread (fresh (dom (threads w)))) parent type
      buttons cancel_id title message detail icon w = Returns v ws /\
    (_ ← ShowMessageBox_async cur parent type buttons cancel_id title
           message detail icon callback;
     _ ← thread_step (fresh (dom (threads w)));
     _ ← ui_step;
     ui_step) w =
    Returns tt
      (set_trace (trace ws ++ [callback_Run BrowserThread_UI callback v]) w).
Proof.
  intros Hstart Hne Hidle.
  set (t := fresh (dom (threads w))) in *.
  rewrite (ShowMessageBox_effect _ _ _ _ _ _ _ _ _ _ Hne).
  do 2 eexists. split; [reflexivity|].
  unfold mbind at 1 2 3. unfold M_bind at 1.
  rewrite (ShowMessageBox_async_posts _ _ _ _ _ _ _ _ _ _ _ Hstart). fold t.
  unfold M_bind at 1.
  erewrite thread_step_runs; [|apply lookup_insert_eq|reflexivity].
  cbn [threads set_threads thread_name running message_loop com_with_mta
         MessageBoxThread run_task].
  rewrite insert_insert_eq.
  unfold RunMessageBoxInNewThread, mbind at 1 2. unfold M_bind at 1.
  rewrite (ShowMessageBox_effect _ _ _ _ _ _ _ _ _ _ Hne).
  unfold M_bind at 1.
  unfold BrowserThread_DeleteSoon_UI, BrowserThread_PostTask_UI.
  cbn [ui_loop set_ui_loop set_trace set_threads threads trace].
  rewrite Hidle. cbn [app].
  unfold M_bind at 1. unfold ui_step at 1.
  cbn [ui_loop set_ui_loop threads trace run_task]. unfold Run, emit.
  cbn [ui_loop set_ui_loop threads trace].
  unfold ui_step.
  cbn [ui_loop set_ui_loop threads trace run_task]. unfold delete_Thread.
  erewrite with_thread_alive by (cbn [threads]; apply lookup_insert_eq).
  cbn [ui_loop set_ui_loop set_trace set_threads threads trace].
  rewrite delete_insert_id by apply fresh_thread_unused.
  unfold set_threads, set_ui_loop, set_trace. cbn [trace threads ui_loop].
  rewrite Hidle. reflexivity.
Qed.

(** X8. With an empty button sequence and a thread that starts, the
    asynchronous overload itself returns, leaving no event and no task for
    the UI thread; the front of the empty vector is taken later, in the
    turn of the worker, which is therefore undefined. *)
Theorem ShowMessageBox_async_no_buttons cur parent type cancel_id title
    message detail icon callback w :
  Thread_Start (fresh (dom (threads w))) = true ->
  exists w1,
    ShowMessageBox_async cur parent type [] cancel_id title message detail
      icon callback w = Returns tt w1 /\
    trace w1 = trace w /\ ui_loop w1 = ui_loop w /\
    thread_step (fresh (dom (threads w))) w1 = Undefined.
Proof.
  intros Hstart.
  rewrite (ShowMessageBox_async_posts _ _ _ _ _ _ _ _ _ _ _ Hstart).
  eexists. split; [reflexivity|]. split; [reflexivity|].
  split; [reflexivity|].
  erewrite thread_step_runs; [|apply lookup_insert_eq|reflexivity].
  cbn [run_task]. unfold RunMessageBoxInNewThread, mbind, M_bind.
  by destruct parent.
Qed.

(** X9. Two asynchronous calls in a row, on a platform whose threads start,
    get two different thread objects, each with its own bound task as only
    pending task; thread objects that were there are not touched, and
    neither is the trace or the UI thread's queue. *)
Theorem ShowMessageBox_async_twice cur parent type buttons cancel_id title
    message detail icon callback cur' parent' type' buttons' cancel_id'
    title' message' detail' icon' callback' w :
  (forall t, Thread_Start t = true) ->
  exists w1 w2,
    ShowMessageBox_async cur parent type buttons cancel_id title message
      detail icon callback w = Returns tt w1 /\
    ShowMessageBox_async cur' parent' type' buttons' cancel_id' title'
      message' detail' icon' callback' w1 = Returns tt w2 /\
    fresh (dom (threads w)) <> fresh (dom (threads w1)) /\
    threads w2 !! fresh (dom (threads w)) =
    Some (MessageBoxThread
            [Bind_RunMessageBoxInNewThread (fresh (dom (threads w))) parent
               type buttons cancel_id title message detail icon callback]) /\
    threads w2 !! fresh (dom (threads w1)) =
    Some (MessageBoxThread
            [Bind_RunMessageBoxInNewThread (fresh (dom (threads w1))) parent'
               type' buttons' cancel_id' title' message' detail' icon'
               callback']) /\
    (forall t th, threads w !! t = Some th -> threads w2 !! t = Some th) /\
    trace w2 = trace w /\ ui_loop w2 = ui_loop w.
Proof.
  intros Hstart.
  rewrite (ShowMessageBox_async_posts _ _ _ _ _ _ _ _ _ _ _ (Hstart _)).
  eexists. eexists. split; [reflexivity|].
  rewrite (ShowMessageBox_async_posts _ _ _ _ _ _ _ _ _ _ _ (Hstart _)).
  split; [reflexivity|].
  set (t1 := fresh (dom (threads w))).
  set (w1 := set_threads _ w).
  set (t2 := fresh (dom (threads w1))).
  assert (Hne : t1 <> t2).
  { intros Heq. pose proof (fresh_thread_unused w1) as Hfresh. fold t2 in Hfresh.
    rewrite <- Heq in Hfresh. subst w1. cbn [threads set_threads] in Hfresh.
    by rewrite lookup_insert_eq in Hfresh. }
  split; [done|]. cbn [threads set_threads trace ui_loop].
  split; [|split; [|split; [|done]]].
  - subst w1. cbn [threads set_threads].
    rewrite lookup_insert_ne by done. apply lookup_insert_eq.
  - apply lookup_insert_eq.
  - intros t th Hth. subst w1. cbn [threads set_threads].
    pose proof (fresh_thread_unused w) as H1. fold t1 in H1.
    pose proof (fresh_thread_unused
                  (set_threads
                     (<[t1 := MessageBoxThread
                                [Bind_RunMessageBoxInNewThread t1 parent type
                                   buttons cancel_id title message detail
                                   icon callback]]> (threads w)) w)) as H2.
    fold t2 in H2. cbn [threads set_threads] in H2.
    assert (t <> t1) by congruence.
    assert (t <> t2).
    { intros ->. rewrite lookup_insert_ne in H2 by done. congruence. }
    by rewrite !lookup_insert_ne.
Qed.

End Run_facts.

(** ** Sample runs of the further properties *)

Lemma ShowMessageBoxUTF16_button_array_witness :
  exists r w' config,
    @ShowMessageBoxUTF16 (Sample.answers (Some 100)) BrowserThread_UI NULL
      MESSAGE_BOX_TYPE_INFORMATION Sample.labels 1 Sample.title
      Sample.message [] None Sample.world = Returns r w' /\
    dialogs (trace w') = dialogs (trace Sample.world) ++ [config] /\
    cButtons config = Z.of_nat (length (pButtons config)) /\
    pszButtonText <$> pButtons config = c_str <$> Sample.labels /\
    Forall (fun b => kIDStart <= nButtonID b /\ nButtonID b <> 0 /\
                     nButtonID b <> IDCANCEL) (pButtons config) /\
    NoDup (nButtonID <$> pButtons config).
Proof.
  apply (@ShowMessageBoxUTF16_button_array (Sample.answers (Some 100))).
  - discriminate.
  - vm_compute. discriminate.
Defined.

Lemma ShowMessageBox_shows_one_dialog_witness :
  exists r w' config,
    @ShowMessageBox (Sample.answers (Some 100)) BrowserThread_UI (Some 3%nat)
      MESSAGE_BOX_TYPE_INFORMATION Sample.OK_Cancel 1 "Title" "Message"
      "Detail" None Sample.world = Returns r w' /\
    trace w' =
    trace Sample.world ++
    [DialogScope_enter 3%nat] ++
    TaskDialogIndirect_called BrowserThread_UI config
      (@TaskDialogIndirect (Sample.answers (Some 100)) config) ::
    @icon_events (Sample.answers (Some 100)) None ++
    [DialogScope_leave 3%nat] /\
    hwndParent config =
    @GetAcceleratedWidget (Sample.answers (Some 100)) 3%nat /\
    pszWindowTitle config =
    c_str (@UTF8ToUTF16 (Sample.answers (Some 100)) "Title") /\
    threads w' = threads Sample.world /\ ui_loop w' = ui_loop Sample.world.
Proof.
  apply (@ShowMessageBox_shows_one_dialog (Sample.answers (Some 100))
           BrowserThread_UI (Some 3%nat)).
  discriminate.
Defined.

Lemma ShowMessageBoxUTF16_small_identifier_witness :
  exists w',
    @ShowMessageBoxUTF16 (Sample.answers (Some 1)) BrowserThread_UI NULL
      MESSAGE_BOX_TYPE_INFORMATION Sample.labels 1 Sample.title
      Sample.message [] None Sample.world = Returns (1 - kIDStart) w' /\
    1 - kIDStart < 0.
Proof.
  apply (@ShowMessageBoxUTF16_small_identifier (Sample.answers (Some 1))).
  - discriminate.
  - reflexivity.
  - unfold kIDStart. lia.
  - discriminate.
Defined.

Lemma ShowMessageBoxUTF16_cancel_index_of_button_witness :
  returned
    (@ShowMessageBoxUTF16 (Sample.answers (Some 101)) BrowserThread_UI NULL
       MESSAGE_BOX_TYPE_INFORMATION Sample.labels (Z.of_nat 1) Sample.title
       Sample.message [] None Sample.world) =
  returned
    (@ShowMessageBoxUTF16 (Sample.answers (Some IDCANCEL)) BrowserThread_UI
       NULL MESSAGE_BOX_TYPE_INFORMATION Sample.labels (Z.of_nat 1)
       Sample.title Sample.message [] None Sample.world).
Proof.
  apply (ShowMessageBoxUTF16_cancel_index_of_button
           (Sample.answers (Some 101)) (Sample.answers (Some IDCANCEL))).
  - unfold kIDStart, INT_MAX. lia.
  - reflexivity.
  - right. right. reflexivity.
Defined.

Lemma ShowMessageBoxUTF16_icon_lifetime_witness :
  exists r w' config,
    @ShowMessageBoxUTF16 (Sample.answers (Some 100)) BrowserThread_UI NULL
      MESSAGE_BOX_TYPE_ERROR Sample.labels 1 Sample.title Sample.message []
      (Some 5%nat) Sample.world = Returns r w' /\
    (forall bitmap,
       Some 5%nat = Some bitmap ->
       @CreateHICONFromSkBitmap (Sample.answers (Some 100)) bitmap <> NULL ->
       MainIcon_u config =
       hMainIcon
         (@CreateHICONFromSkBitmap (Sample.answers (Some 100)) bitmap) /\
       trace w' =
       trace Sample.world ++
       [TaskDialogIndirect_called BrowserThread_UI config
          (@TaskDialogIndirect (Sample.answers (Some 100)) config);
        DestroyIcon
          (@CreateHICONFromSkBitmap (Sample.answers (Some 100)) bitmap)]) /\
    (Some 5%nat = None \/
     (exists bitmap,
        Some 5%nat = Some bitmap /\
        @CreateHICONFromSkBitmap (Sample.answers (Some 100)) bitmap = NULL) ->
     trace w' =
     trace Sample.world ++
     [TaskDialogIndirect_called BrowserThread_UI config
        (@TaskDialogIndirect (Sample.answers (Some 100)) config)]).
Proof.
  apply (@ShowMessageBoxUTF16_icon_lifetime (Sample.answers (Some 100))).
  discriminate.
Defined.

Lemma ShowMessageBoxUTF16_no_other_flag_witness :
  exists r w' config,
    @ShowMessageBoxUTF16 (Sample.answers (Some 100)) BrowserThread_UI NULL
      MESSAGE_BOX_TYPE_ERROR Sample.labels 1 Sample.title Sample.message []
      (Some 5%nat) Sample.world = Returns r w' /\
    dialogs (trace w') = dialogs (trace Sample.world) ++ [config] /\
    has_flag
      (Z.lor (Z.lor TDF_SIZE_TO_CONTENT TDF_ALLOW_DIALOG_CANCELLATION)
         TDF_USE_HICON_MAIN) (dwFlags config) = true /\
    dwCommonButtons config = 0.
Proof.
  apply (@ShowMessageBoxUTF16_no_other_flag (Sample.answers (Some 100))).
  discriminate.
Defined.

Lemma ShowMessageBoxUTF16_detail_NUL_witness :
  exists r w' config,
    @ShowMessageBoxUTF16 (Sample.answers (Some 100)) BrowserThread_UI NULL
      MESSAGE_BOX_TYPE_ERROR Sample.labels 1 Sample.title Sample.message
      (0 :: Sample.detail) None Sample.world = Returns r w' /\
    dialogs (trace w') = dialogs (trace Sample.world) ++ [config] /\
    pszMainInstruction config = c_str Sample.message /\
    pszContent config = Some [].
Proof.
  apply (@ShowMessageBoxUTF16_detail_NUL (Sample.answers (Some 100))).
  discriminate.
Defined.

Lemma ShowMessageBox_async_complete_run_witness :
  exists v ws,
    @ShowMessageBox (Sample.answers (Some 101))
      (base_Thread (fresh (dom (threads Sample.world)))) None
      MESSAGE_BOX_TYPE_WARNING Sample.OK_Cancel 0 "Title" "Message" "Detail"
      None Sample.world = Returns v ws /\
    (_ ← @ShowMessageBox_async (Sample.answers (Some 101)) BrowserThread_UI
           None MESSAGE_BOX_TYPE_WARNING Sample.OK_Cancel 0 "Title"
           "Message" "Detail" None 9%nat;
     _ ← @thread_step (Sample.answers (Some 101))
           (fresh (dom (threads Sample.world)));
     _ ← @ui_step (Sample.answers (Some 101));
     @ui_step (Sample.answers (Some 101))) Sample.world =
    Returns tt
      (set_trace (trace ws ++ [callback_Run BrowserThread_UI 9%nat v])
         Sample.world).
Proof.
  apply (@ShowMessageBox_async_complete_run (Sample.answers (Some 101))).
  - reflexivity.
  - discriminate.
  - reflexivity.
Defined.

Lemma ShowMessageBox_async_no_buttons_witness :
  exists w1,
    @ShowMessageBox_async (Sample.answers (Some 101)) BrowserThread_UI None
      MESSAGE_BOX_TYPE_WARNING [] 0 "Title" "Message" "Detail" None 9%nat
      Sample.world = Returns tt w1 /\
    trace w1 = trace Sample.world /\ ui_loop w1 = ui_loop Sample.world /\
    @thread_step (Sample.answers (Some 101))
      (fresh (dom (threads Sample.world))) w1 = Undefined.
Proof.
  apply (@ShowMessageBox_async_no_buttons (Sample.answers (Some 101))).
  reflexivity.
Defined.

Lemma ShowMessageBox_async_twice_witness :
  exists w1 w2,
    @ShowMessageBox_async (Sample.answers (Some 101)) BrowserThread_UI None
      MESSAGE_BOX_TYPE_WARNING Sample.OK_Cancel 0 "Title" "Message" "Detail"
      None 9%nat Sample.world = Returns tt w1 /\
    @ShowMessageBox_async (Sample.answers (Some 101)) BrowserThread_UI None
      MESSAGE_BOX_TYPE_ERROR Sample.OK_Cancel 1 "Title" "Message" "Detail"
      None 8%nat w1 = Returns tt w2 /\
    fresh (dom (threads Sample.world)) <> fresh (dom (threads w1)).
Proof.
  destruct (@ShowMessageBox_async_twice (Sample.answers (Some 101))
              BrowserThread_UI None MESSAGE_BOX_TYPE_WARNING Sample.OK_Cancel
              0 "Title"%string "Message"%string "Detail"%string None 9%nat
              BrowserThread_UI None MESSAGE_BOX_TYPE_ERROR Sample.OK_Cancel 1
              "Title"%string "Message"%string "Detail"%string None 8%nat
              Sample.world (fun _ => eq_refl))
    as (w1 & w2 & H1 & H2 & Hne & _).
  exists w1, w2. split; [exact H1|]. split; [exact H2|]. exact Hne.
Defined.
